(** * Page composition and routing of the documentation site

    The development follows the two source files of the site:
    - [AstroPage.tsx]: the page composer [AstroPage], a function component
      without props that returns a fixed tree of content blocks;
    - [App.tsx]: the [router] table handed to [createBrowserRouter] and the
      [App] component that renders it.

    React elements are data (a tag or a component together with its props and
    children), so a component is embedded as a function that returns such a
    tree.  The components under [components/tools], the [Layout] component,
    three of the four pages and the routing library are not part of the two
    files.  Where a statement needs the behaviour of a missing component it
    is taken from the written specification, and each such definition says
    so; the route matching follows the default behaviour of the routing
    library. *)

From Stdlib Require Import String Ascii List NArith.
Import ListNotations.

#[local] Set Warnings "-register-all".
Local Open Scope string_scope.
Local Open Scope list_scope.

(** ** Configuration records of the content blocks *)

(** One answer of a quiz: [{ id: "A", text: "..." }]. *)
Record QuizOption : Type := mkQuizOption {
  id : string;
  text : string
}.

(** The object literal passed as the [question] prop of [<Quiz>]. *)
Record QuizQuestion : Type := mkQuizQuestion {
  question : string;
  options : list QuizOption;
  correctAnswer : string;
  explanation : string
}.

(** One entry of the [links] prop of [<Resources>]. *)
Record ResourceLink : Type := mkResourceLink {
  title : string;
  url : string;
  description : string
}.

(** A content block element: the component imported from [components/tools]
    together with the props written at the use site. *)
Inductive Block : Type :=
| TextBlock (header text : string)
| MermaidDiagram (diagramPath caption : string)
| CodeSnippet (language fileName code : string)
| Quiz (title : string) (question : QuizQuestion)
| Resources (title : string) (links : list ResourceLink).

(** The component a block element was built from. *)
Inductive Kind : Type :=
| KTextBlock | KMermaidDiagram | KCodeSnippet | KQuiz | KResources.

Definition kindOf (b : Block) : Kind :=
  match b with
  | TextBlock _ _ => KTextBlock
  | MermaidDiagram _ _ => KMermaidDiagram
  | CodeSnippet _ _ _ => KCodeSnippet
  | Quiz _ _ => KQuiz
  | Resources _ _ => KResources
  end.

(** ** Element trees returned by a page component *)

(** What the JSX of a component evaluates to: intrinsic elements ([div],
    [h1]) with their [className] and children, JSX text, and elements of the
    block components.  The tree is polymorphic in what sits at a block
    position: the props alone before mounting, the props with the transient
    state of the instance afterwards. *)
Inductive Tree (A : Type) : Type :=
| Host (tag className : string) (children : list (Tree A))
| JsxText (s : string)
| BlockEl (a : A).

Arguments Host {A} tag className children.
Arguments JsxText {A} s.
Arguments BlockEl {A} a.

Definition Markup : Type := Tree Block.

(** Props handed to a function component.  [AstroPage] is a [React.FC]
    without a props type and never reads them. *)
Definition Props : Type := list (string * string).

(** The double quote character, spliced into literals that contain it. *)
Definition dq : string := String (ascii_of_nat 34) EmptyString.

(** ** AstroPage.tsx *)

(** The component takes no props and returns one [div]: the title of the
    page followed by its content blocks.  String attributes and template
    literals are kept character for character as they are written. *)
Definition AstroPage (_ : Props) : Markup :=
  Host "div" "space-y-8 p-6"
    [ Host "h1" "text-4xl font-bold mb-8 text-white"
        [ JsxText "Astro: The Web Framework for Content-Driven Websites" ];

      BlockEl
       (TextBlock
          "The Problem Space: JavaScript Bloat in Content-Heavy Websites"
          "Modern web development has led to JavaScript bundle sizes growing exponentially, often delivering hundreds of kilobytes of unused code to users. Content-driven websites like blogs, documentation sites, and marketing pages suffer from this 'JavaScript tax' - loading entire React/Vue applications for pages that are primarily static content.

**Key challenges Astro addresses:**

- **Bundle Size Inflation**: Traditional SPAs ship framework code even for static pages
- **Performance Degradation**: Heavy JavaScript impacts Core Web Vitals and user experience
- **SEO and Accessibility**: Client-side rendering delays content availability to search engines and screen readers
- **Developer Complexity**: Framework lock-in and steep learning curves for simple content sites
- **Build Performance**: Complex bundling and optimization processes for static content

Astro introduces a fundamentally different approach: **islands of interactivity** in a sea of static HTML, allowing developers to build fast, content-focused websites without sacrificing modern development features.");

      BlockEl
       (MermaidDiagram
          "/diagrams/astro-architecture.mmd"
          "Astro's island architecture showing selective hydration and static generation");

      BlockEl
       (TextBlock
          "Conceptual Architecture: Islands of Interactivity"
          "Astro's architecture centers on **component islands** - isolated, interactive components surrounded by static HTML. This approach fundamentally differs from traditional single-page applications by treating interactivity as an enhancement rather than a requirement.

**Core Architectural Principles:**

1. **Server-First Rendering**: Pages are rendered to HTML on the server by default, eliminating client-side JavaScript for static content

2. **Selective Hydration**: Interactive components are hydrated independently, only when and where needed

3. **Framework Agnosticism**: Use any UI framework (React, Vue, Svelte, Solid) or none at all with Astro components

4. **File-Based Routing**: Pages are created by placing `.astro` files in the `src/pages/` directory

5. **Content Collections**: Type-safe content management with automatic TypeScript generation

**Build System Integration:**

- **Vite-Powered**: Leverages Vite's fast development server and optimized production builds
- **Asset Optimization**: Automatic image optimization, CSS processing, and font loading
- **Deployment Flexibility**: Output formats include static sites, server-side rendering, and edge functions

This architecture enables **zero-JavaScript websites by default**, with progressive enhancement through client directives like `client:load`, `client:idle`, and `client:visible`.");

      BlockEl
       (CodeSnippet
          "javascript"
          "astro.config.mjs"
          "import { defineConfig } from 'astro/config';
import react from '@astrojs/react';
import tailwind from '@astrojs/tailwind';

// https://astro.build/config
export default defineConfig({
  integrations: [react(), tailwind()],
  output: 'static', // 'static' | 'server' | 'hybrid'
  build: {
    inlineStylesheets: 'auto',
  },
  image: {
    service: {
      entrypoint: 'astro/assets/services/sharp'
    }
  }
});");

      BlockEl
       (TextBlock
          "Practical Implementation: Building Content-Driven Sites"
          "Astro excels at building content-heavy websites with minimal JavaScript overhead. The development workflow combines familiar web technologies with powerful content management features.

**Project Structure and Conventions:**

- **`src/pages/`**: File-based routing with `.astro`, `.md`, `.mdx` files
- **`src/components/`**: Reusable components with framework mixing support
- **`src/layouts/`**: Page templates with shared structure
- **`src/content/`**: Type-safe content collections with schema validation
- **`public/`**: Static assets served at root path

**Content Collections API:**

Astro's content collections provide type-safe content management with automatic schema validation and TypeScript generation. Collections are defined in `src/content/config.ts` and content is stored in `src/content/[collection]/` directories.

**Build Output Options:**

- **Static Generation** (`output: 'static'`): Pre-built HTML files for maximum performance
- **Server-Side Rendering** (`output: 'server'`): Dynamic rendering with adapters for various platforms
- **Hybrid Rendering** (`output: 'hybrid'`): Mix of static and dynamic pages

**Client Directives for Interactivity:**

- `client:load`: Immediate hydration on page load
- `client:idle`: Hydration after page becomes idle
- `client:visible`: Hydration when component enters viewport
- `client:media`: Hydration based on media queries
- `server:defer`: Server islands with fallback content

This approach enables developers to build sophisticated websites that perform like static sites while retaining the flexibility of modern web frameworks.");

      BlockEl
       (CodeSnippet
          "astro"
          "src/pages/blog/[...slug].astro"
          (String.concat dq
            ["---
// Dynamic route for blog posts
import { getCollection } from 'astro:content';
import Layout from '../../layouts/BlogLayout.astro';

export async function getStaticPaths() {
  const blogEntries = await getCollection('blog');
  return blogEntries.map(entry => ({
    params: { slug: entry.slug },
    props: { entry },
  }));
}

const { entry } = Astro.props;
const { Content } = await entry.render();
---

<Layout title={entry.data.title}>
  <article class=";
             "prose prose-lg max-w-none";
             ">
    <header class=";
             "mb-8";
             ">
      <h1 class=";
             "text-4xl font-bold text-gray-900 mb-4";
             ">
        {entry.data.title}
      </h1>
      <p class=";
             "text-gray-600 text-lg";
             ">
        {entry.data.description}
      </p>
      <time class=";
             "text-sm text-gray-500";
             ">
        {entry.data.publishDate.toLocaleDateString()}
      </time>
    </header>

    <!-- Rendered content from Markdown/MDX -->
    <Content />
  </article>

  <!-- Interactive comment component (React island) -->
  <div class=";
             "mt-12";
             ">
    <Comments client:load postId={entry.data.postId} />
  </div>
</Layout>"]));

      BlockEl
       (Quiz
          "Understanding Astro's Island Architecture"
          {| question :=
               "What is the primary advantage of Astro's island architecture over traditional single-page applications?";
             options :=
               [ {| id := "A"; text := "It eliminates the need for HTML entirely" |};
                 {| id := "B"; text := "It allows selective hydration, shipping zero JavaScript by default for static content" |};
                 {| id := "C"; text := "It forces all components to be interactive" |};
                 {| id := "D"; text := "It requires every page to be server-side rendered" |} ];
             correctAnswer := "B";
             explanation :=
               "Astro's island architecture allows components to be selectively hydrated, meaning static content ships as pure HTML/CSS without JavaScript, while interactive components are hydrated independently. This results in dramatically smaller bundle sizes and better performance for content-driven sites." |});

      BlockEl
       (TextBlock
          "Advanced Features: Content Collections and Type Safety"
          "Astro's Content Collections API provides a powerful, type-safe way to manage content with automatic validation and TypeScript integration. This feature transforms content management from error-prone file operations to a robust, developer-friendly system.

**Schema Definition:**

Content collections use Zod schemas to define content structure, enabling runtime validation and automatic TypeScript type generation. This ensures content integrity and provides excellent developer experience with full IntelliSense support.

**Content Organization:**

Collections are stored in `src/content/[collection]/` directories, supporting Markdown, MDX, and JSON formats. Each collection can have its own schema, allowing for flexible content modeling.

**Query and Rendering:**

The `getCollection()` and `getEntry()` functions provide efficient content querying with filtering and sorting capabilities. Content is rendered using the `.render()` method, which processes frontmatter and returns the content body.

**Integration Ecosystem:**

Astro's adapter system enables deployment to various platforms including Netlify, Vercel, Cloudflare, and traditional servers. Integrations extend functionality with React, Vue, Tailwind CSS, and specialized tools for images, fonts, and SEO.

**Performance Optimization:**

Built-in optimizations include automatic image processing, CSS optimization, font loading strategies, and critical resource hints. The build system analyzes dependencies to minimize bundle sizes and optimize loading performance.

This combination of features makes Astro particularly well-suited for documentation sites, blogs, marketing pages, and any content-heavy application where performance and developer experience are paramount.");

      BlockEl
       (CodeSnippet
          "typescript"
          "src/content/config.ts"
          "import { defineCollection, z } from 'astro:content';

// Blog collection schema
const blogCollection = defineCollection({
  type: 'content', // 'content' for Markdown/MDX, 'data' for JSON/YAML
  schema: z.object({
    title: z.string(),
    description: z.string(),
    publishDate: z.date(),
    author: z.string(),
    tags: z.array(z.string()),
    draft: z.boolean().default(false),
    image: z.object({
      src: z.string(),
      alt: z.string(),
    }).optional(),
  }),
});

// Product collection schema
const productCollection = defineCollection({
  type: 'data',
  schema: z.object({
    name: z.string(),
    price: z.number(),
    description: z.string(),
    features: z.array(z.string()),
    category: z.enum(['software', 'hardware', 'service']),
  }),
});

export const collections = {
  blog: blogCollection,
  products: productCollection,
};");

      BlockEl
       (Quiz
          "Astro Content Collections"
          {| question :=
               "What is the primary benefit of using Astro's Content Collections API over traditional file-based content management?";
             options :=
               [ {| id := "A"; text := "It automatically generates HTML from content files" |};
                 {| id := "B"; text := "It provides type-safe content with schema validation and automatic TypeScript generation" |};
                 {| id := "C"; text := "It eliminates the need for frontmatter in Markdown files" |};
                 {| id := "D"; text := "It converts all content to JSON format automatically" |} ];
             correctAnswer := "B";
             explanation :=
               "Content Collections provide type safety through Zod schemas, enabling automatic TypeScript generation, runtime validation, and excellent developer experience with IntelliSense. This prevents content-related bugs and provides compile-time guarantees about content structure." |});

      BlockEl
       (Resources
          "Essential Astro Resources"
          [ {| title := "Official Astro Documentation";
               url := "https://docs.astro.build/";
               description :=
                 "Comprehensive documentation covering all Astro features, guides, and API references" |};
            {| title := "Astro Tutorial";
               url := "https://docs.astro.build/en/tutorial/0-introduction/";
               description :=
                 "Step-by-step tutorial for building your first Astro website" |};
            {| title := "Astro Islands Guide";
               url := "https://docs.astro.build/en/concepts/islands/";
               description :=
                 "Deep dive into Astro's island architecture and selective hydration" |};
            {| title := "Content Collections";
               url := "https://docs.astro.build/en/guides/content-collections/";
               description :=
                 "Guide to using Astro's type-safe content management system" |};
            {| title := "Astro Integrations";
               url := "https://docs.astro.build/en/guides/integrations-guide/";
               description :=
                 "Official and community integrations for extending Astro functionality" |};
            {| title := "Astro Discord Community";
               url := "https://astro.build/chat";
               description :=
                 "Active community forum for questions, discussions, and getting help" |};
            {| title := "Awesome Astro";
               url := "https://github.com/one-aalam/awesome-astro";
               description :=
                 "Curated list of Astro resources, themes, tools, and integrations" |} ]) ].

(** ** App.tsx *)

(** The page components imported by [App.tsx], as they occur in JSX. *)
Module Pages.
Inductive ref : Type :=
| HomePage | GithubActionsPage | PyTorchPage | AstroPage.
End Pages.

(** The elements of the route table: [<Layout>children</Layout>] and
    [<SomePage />]. *)
Inductive Element : Type :=
| LayoutEl (children : list Element)
| PageEl (page : Pages.ref).

(** A route object: [{ path, element }]. *)
Record RouteObject : Type := mkRoute {
  path : string;
  element : Element
}.

(** The array literal passed to [createBrowserRouter]. *)
Definition router : list RouteObject :=
  [ {| path := "/";
       element := LayoutEl [ PageEl Pages.HomePage ] |};
    {| path := "/docs/github-actions";
       element := LayoutEl [ PageEl Pages.GithubActionsPage ] |};
    {| path := "/docs/pytorch";
       element := LayoutEl [ PageEl Pages.PyTorchPage ] |};
    {| path := "/docs/astro";
       element := LayoutEl [ PageEl Pages.AstroPage ] |} ].

(** ** Traversals of element trees *)

Fixpoint tree_map {A B : Type} (f : A -> B) (t : Tree A) : Tree B :=
  match t with
  | Host tag cls ch => Host tag cls (map (tree_map f) ch)
  | JsxText s => JsxText s
  | BlockEl a => BlockEl (f a)
  end.

(** The block positions of a tree, in document order. *)
Fixpoint leaves {A : Type} (t : Tree A) : list A :=
  match t with
  | Host _ _ ch => flat_map leaves ch
  | JsxText _ => []
  | BlockEl a => [a]
  end.

(** Induction over a tree whose children sit in a list. *)
Section TreeInduction.
Context {A : Type} (P : Tree A -> Prop).
Hypothesis P_host :
  forall tag cls ch, Forall P ch -> P (Host tag cls ch).
Hypothesis P_text : forall s, P (JsxText s).
Hypothesis P_block : forall a, P (BlockEl a).

Fixpoint Tree_children_ind (t : Tree A) : P t :=
  match t with
  | Host tag cls ch =>
      P_host tag cls ch
        ((fix all (l : list (Tree A)) : Forall P l :=
            match l with
            | [] => Forall_nil P
            | x :: xs => Forall_cons x (Tree_children_ind x) (all xs)
            end) ch)
  | JsxText s => P_text s
  | BlockEl a => P_block a
  end.
End TreeInduction.

(** The authored sequence of content blocks of a page. *)
Definition blocksOf (m : Markup) : list Block := leaves m.

(** A short identifying literal of each block: the header of a text block,
    the path of a diagram, the file name of a snippet, the title of a quiz
    or of a resource list. *)
Definition blockLabel (b : Block) : string :=
  match b with
  | TextBlock header _ => header
  | MermaidDiagram diagramPath _ => diagramPath
  | CodeSnippet _ fileName _ => fileName
  | Quiz title _ => title
  | Resources title _ => title
  end.

Definition quizzesOf (m : Markup) : list QuizQuestion :=
  flat_map (fun b => match b with Quiz _ q => [q] | _ => [] end) (blocksOf m).

Definition resourcesOf (m : Markup) : list (list ResourceLink) :=
  flat_map (fun b => match b with Resources _ ls => [ls] | _ => [] end)
    (blocksOf m).

(** ** Mounted blocks and their display *)

(** A mounted block: its props and the transient state of the instance (for
    a quiz the id of the selected option; unused by the other kinds). *)
Record Instance : Type := mkInstance {
  props : Block;
  selected : option string
}.

(** A block as it is when its page has just been mounted. *)
Definition fresh (b : Block) : Instance :=
  {| props := b; selected := None |}.

Definition View : Type := Tree Instance.

Definition mount (m : Markup) : View := tree_map fresh m.

(** Forgets the transient state: what is left is the static part. *)
Definition static (i : Instance) : Instance := fresh (props i).

Inductive Indication : Type := Correct | Incorrect.

Record Anchor : Type := mkAnchor {
  href : string;
  label : string;
  note : string
}.

(** What a block shows. *)
Inductive Rendered : Type :=
| ProseSection (heading body : string)
| CodeDisplay (language fileName source : string)
| QuizPanel (title prompt : string) (choices : list QuizOption)
    (feedback : option (Indication * string))
| LinkList (title : string) (anchors : list Anchor)
| DiagramFigure (definition caption : string)
| DiagramPlaceholder (caption : string).

(** The diagram files that can be loaded: the text of the definition at a
    path, or nothing when loading it fails. *)
Definition Assets : Type := string -> option string.

Definition verdict (q : QuizQuestion) (chosen : string) : Indication :=
  if String.eqb chosen (correctAnswer q) then Correct else Incorrect.

Definition quizFeedback (q : QuizQuestion) (sel : option string)
  : option (Indication * string) :=
  match sel with
  | None => None
  | Some chosen => Some (verdict q chosen, explanation q)
  end.

Definition anchorOf (l : ResourceLink) : Anchor :=
  {| href := url l; label := title l; note := description l |}.

(** Modelled from the spec: the five renderers of [components/tools]
    ([TextBlock], [CodeSnippet], [Quiz], [Resources], [MermaidDiagram]), whose
    files are not among the sources.  Each is a function from its
    configuration to displayable output: a titled prose section; a read-only
    code display; a quiz that, once the viewer has selected an option, reveals
    whether it is the correct one and displays the explanation; a list of
    outbound links, one per configured entry; a diagram resolved from its
    path, degrading to a placeholder when the asset is missing. *)
Definition display (assets : Assets) (i : Instance) : Rendered :=
  match props i with
  | TextBlock header text => ProseSection header text
  | CodeSnippet language fileName code => CodeDisplay language fileName code
  | Quiz title q =>
      QuizPanel title (question q) (options q) (quizFeedback q (selected i))
  | Resources title links => LinkList title (map anchorOf links)
  | MermaidDiagram diagramPath caption =>
      match assets diagramPath with
      | Some definition => DiagramFigure definition caption
      | None => DiagramPlaceholder caption
      end
  end.

Definition feedbackOf (r : Rendered) : option (Indication * string) :=
  match r with
  | QuizPanel _ _ _ fb => fb
  | _ => None
  end.

Definition renderedLinks (r : Rendered) : list Anchor :=
  match r with
  | LinkList _ anchors => anchors
  | _ => []
  end.

(** Modelled from the spec: the interaction of the [Quiz] component, whose
    file is not among the sources.  The viewer selects one of the options of
    the quiz; the selection is transient state of that instance. *)
Definition selectOption (o : QuizOption) (i : Instance) : Instance :=
  match props i with
  | Quiz _ _ => {| props := props i; selected := Some (id o) |}
  | _ => i
  end.

(** The viewer selects [o] in the quiz titled [quizTitle]. *)
Definition selectIn (quizTitle : string) (o : QuizOption) (i : Instance)
  : Instance :=
  match props i with
  | Quiz title _ => if String.eqb title quizTitle then selectOption o i else i
  | _ => i
  end.

(** ** Mounting a route element *)

(** Modelled from the spec: the [Layout] component, whose file is not among
    the sources.  It wraps its children with the shared chrome, which is the
    same for every page; [InLayout] stands for that chrome around the mounted
    children. *)
Inductive Mounted : Type :=
| InLayout (children : list Mounted)
| PageView (v : View).

Fixpoint mounted_map (f : Instance -> Instance) (m : Mounted) : Mounted :=
  match m with
  | InLayout ch => InLayout (map (mounted_map f) ch)
  | PageView v => PageView (tree_map f v)
  end.

Fixpoint mountedBlocks (m : Mounted) : list Instance :=
  match m with
  | InLayout ch => flat_map mountedBlocks ch
  | PageView v => leaves v
  end.

Section MountedInduction.
Variable P : Mounted -> Prop.
Hypothesis P_layout : forall ch, Forall P ch -> P (InLayout ch).
Hypothesis P_page : forall v, P (PageView v).

Fixpoint Mounted_children_ind (m : Mounted) : P m :=
  match m with
  | InLayout ch =>
      P_layout ch
        ((fix all (l : list Mounted) : Forall P l :=
            match l with
            | [] => Forall_nil P
            | x :: xs => Forall_cons x (Mounted_children_ind x) (all xs)
            end) ch)
  | PageView v => P_page v
  end.
End MountedInduction.

(** What the browser shows: a mounted route element, or what is shown when
    no route matches.  The table of [App.tsx] has no catch-all route and no
    [errorElement], so the application has no not-found page of its own;
    [NotFoundScreen] stands for the screen the routing library puts in its
    place, its default error screen reporting [404 Not Found]. *)
Inductive Screen : Type :=
| PageScreen (m : Mounted)
| NotFoundScreen.

Definition screen_map (f : Instance -> Instance) (s : Screen) : Screen :=
  match s with
  | PageScreen m => PageScreen (mounted_map f m)
  | NotFoundScreen => NotFoundScreen
  end.

Definition screenBlocks (s : Screen) : list Instance :=
  match s with
  | PageScreen m => mountedBlocks m
  | NotFoundScreen => []
  end.

(** What the blocks on the screen show, in document order. *)
Definition displayed (assets : Assets) (s : Screen) : list Rendered :=
  map (display assets) (screenBlocks s).

(** ** Patterns of the route table *)

(** A path pattern of the routing library is dynamic when it has a parameter
    segment ([:name]) or a wildcard ([*]). *)
Fixpoint mentions (c : ascii) (s : string) : bool :=
  match s with
  | EmptyString => false
  | String d rest => Ascii.eqb c d || mentions c rest
  end.

Definition isDynamicPattern (pattern : string) : bool :=
  mentions ":"%char pattern || mentions "*"%char pattern.

(** ** Well-formed quiz configurations *)

(** The option ids are pairwise distinct and exactly one option carries the
    id named as the correct answer. *)
Definition wellFormedQuiz (q : QuizQuestion) : Prop :=
  NoDup (map id (options q)) /\
  length (filter (fun o => String.eqb (id o) (correctAnswer q)) (options q)) = 1.

(** ** Sample data *)

(** A page without content and an asset store without files, used where a
    statement is instantiated on concrete data. *)
Definition blankPage : Props -> Markup := fun _ => Host "div" "" [].

Definition noAssets : Assets := fun _ => None.

(** The block at a position of a page, as a freshly mounted instance. *)
Definition instanceAt (n : nat) (m : Markup) : option Instance :=
  option_map fresh (nth_error (blocksOf m) n).

(** ** Checks on the authored data *)

Definition nonEmpty (s : string) : bool := negb (String.eqb s "").

Fixpoint allChars (ok : ascii -> bool) (s : string) : bool :=
  match s with
  | EmptyString => true
  | String c rest => ok c && allChars ok rest
  end.

(** The pieces of a string between occurrences of a separator. *)
Fixpoint split_on (sep : ascii) (s : string) : list string :=
  match s with
  | EmptyString => [ EmptyString ]
  | String c rest =>
      if Ascii.eqb c sep then EmptyString :: split_on sep rest
      else
        match split_on sep rest with
        | [] => [ String c EmptyString ]
        | piece :: pieces => String c piece :: pieces
        end
  end.

(** Lower-case letters, digits and the hyphen. *)
Definition kebabChar (c : ascii) : bool :=
  let n := nat_of_ascii c in
  (Nat.leb 97 n && Nat.leb n 122) || (Nat.leb 48 n && Nat.leb n 57)
  || Nat.eqb n 45.

(** The topic of a path of the shape [/docs/<topic>]. *)
Definition docsTopic (pathname : string) : option string :=
  match split_on "/"%char pathname with
  | [ root; section; topic ] =>
      if (String.eqb root "" && String.eqb section "docs")%bool
      then Some topic
      else None
  | _ => None
  end.

(** A resource entry that can be shown as a link: a secure absolute url
    without blanks, and a title and a description to show with it. *)
Definition resourceLinkOk (l : ResourceLink) : bool :=
  String.prefix "https://" (url l)
  && allChars (fun c => negb (Ascii.eqb c " "%char)) (url l)
  && nonEmpty (title l)
  && nonEmpty (description l).

(** An option with an id and a text, and a link with a title, a url and a
    description. *)
Definition optionComplete (o : QuizOption) : bool :=
  nonEmpty (id o) && nonEmpty (text o).

Definition linkComplete (l : ResourceLink) : bool :=
  nonEmpty (title l) && nonEmpty (url l) && nonEmpty (description l).

(** A block none of whose literals is left empty, down to the options of a
    quiz and the entries of a resource list, and whose option list or link
    list is not empty. *)
Definition blockComplete (b : Block) : bool :=
  match b with
  | TextBlock header text => nonEmpty header && nonEmpty text
  | MermaidDiagram diagramPath caption =>
      nonEmpty diagramPath && nonEmpty caption
  | CodeSnippet language fileName code =>
      nonEmpty language && nonEmpty fileName && nonEmpty code
  | Quiz title q =>
      nonEmpty title && nonEmpty (question q) && nonEmpty (correctAnswer q)
      && nonEmpty (explanation q)
      && negb (Nat.eqb (length (options q)) 0)
      && forallb optionComplete (options q)
  | Resources title links =>
      nonEmpty title
      && negb (Nat.eqb (length links) 0)
      && forallb linkComplete links
  end.

(** ** Route matching of the routing library *)

(** [App.tsx] hands the table to [createBrowserRouter] without options, and
    the routing library is not among the sources.  The definitions of this
    part follow what the library does by default with a flat table of
    patterns that have no parameter, wildcard or optional segment (the table
    of [App.tsx] is of this kind): the pathname of the location is decoded
    segment by segment; each pattern is compiled to an expression that
    accepts the pattern itself, without regard to letter case, followed by
    any number of slashes; and the first pattern that accepts the decoded
    pathname selects the route.  The library tries the patterns by rank,
    which makes no difference for a table of which no two patterns accept the
    same pathname.  A string is a sequence of bytes here; a pathname that
    comes from the address bar is in ASCII. *)

Local Open Scope bool_scope.

(** *** Decoding *)

Definition between (lo hi n : N) : bool := N.leb lo n && N.leb n hi.

(** The value of a hexadecimal digit. *)
Definition hexDigit (c : ascii) : option N :=
  let n := N_of_ascii c in
  if between 48 57 n then Some (n - 48)%N
  else if between 65 70 n then Some (n - 55)%N
  else if between 97 102 n then Some (n - 87)%N
  else None.

(** A pathname read as plain characters and percent escapes. *)
Inductive Token : Type :=
| Plain (c : ascii)
| Escaped (byte : N).

(** Fails on a percent sign that is not followed by two hexadecimal
    digits. *)
Fixpoint tokens (s : string) : option (list Token) :=
  match s with
  | EmptyString => Some []
  | String c rest =>
      if Ascii.eqb c "%"%char then
        match rest with
        | String h (String l rest') =>
            match hexDigit h, hexDigit l, tokens rest' with
            | Some a, Some b, Some ts => Some (Escaped (16 * a + b)%N :: ts)
            | _, _, _ => None
            end
        | _ => None
        end
      else
        match tokens rest with
        | Some ts => Some (Plain c :: ts)
        | None => None
        end
  end.

(** A byte that continues a multi-byte character. *)
Definition continues (n : N) : bool := between 128 191 n.

Definition bytes (l : list N) (s : string) : string :=
  fold_right (fun n acc => String (ascii_of_N n) acc) s l.

(** Escaped bytes above 127 must spell one well-formed UTF-8 character, all
    of whose bytes are escaped; anything else fails. *)
Fixpoint decodeTokens (ts : list Token) : option string :=
  match ts with
  | [] => Some EmptyString
  | Plain c :: rest => option_map (String c) (decodeTokens rest)
  | Escaped b :: rest =>
      if (b <? 128)%N then option_map (bytes [ b ]) (decodeTokens rest)
      else if between 194 223 b then
        match rest with
        | Escaped b1 :: rest' =>
            if continues b1
            then option_map (bytes [ b; b1 ]) (decodeTokens rest')
            else None
        | _ => None
        end
      else if between 224 239 b then
        match rest with
        | Escaped b1 :: Escaped b2 :: rest' =>
            if (if (b =? 224)%N then between 160 191 b1
                else if (b =? 237)%N then between 128 159 b1
                else continues b1)
               && continues b2
            then option_map (bytes [ b; b1; b2 ]) (decodeTokens rest')
            else None
        | _ => None
        end
      else if between 240 244 b then
        match rest with
        | Escaped b1 :: Escaped b2 :: Escaped b3 :: rest' =>
            if (if (b =? 240)%N then between 144 191 b1
                else if (b =? 244)%N then between 128 143 b1
                else continues b1)
               && continues b2 && continues b3
            then option_map (bytes [ b; b1; b2; b3 ]) (decodeTokens rest')
            else None
        | _ => None
        end
      else None
  end.

(** [decodeURIComponent], which throws on a malformed escape. *)
Definition decodeURIComponent (s : string) : option string :=
  match tokens s with
  | Some ts => decodeTokens ts
  | None => None
  end.

(** A slash that was escaped stays escaped. *)
Fixpoint replaceSlashes (s : string) : string :=
  match s with
  | EmptyString => EmptyString
  | String c rest =>
      if Ascii.eqb c "/"%char then String.append "%2F" (replaceSlashes rest)
      else String c (replaceSlashes rest)
  end.

Fixpoint decodeSegments (segments : list string) : option (list string) :=
  match segments with
  | [] => Some []
  | segment :: rest =>
      match decodeURIComponent segment, decodeSegments rest with
      | Some decoded, Some others => Some (replaceSlashes decoded :: others)
      | _, _ => None
      end
  end.

(** The pathname is split at its slashes, every segment is decoded, and the
    segments are joined again; when a segment cannot be decoded the pathname
    is used as it is. *)
Definition decodePath (value : string) : string :=
  match decodeSegments (split_on "/"%char value) with
  | Some segments => String.concat "/" segments
  | None => value
  end.

(** The pathname that is matched: an empty pathname counts as [/]. *)
Definition incomingPath (pathname : string) : string :=
  decodePath (if String.eqb pathname "" then "/" else pathname).

(** *** Compiled patterns *)

Definition asciiLower (c : ascii) : ascii :=
  let n := N_of_ascii c in
  if between 65 90 n then ascii_of_N (n + 32) else c.

Fixpoint lower (s : string) : string :=
  match s with
  | EmptyString => EmptyString
  | String c rest => String (asciiLower c) (lower rest)
  end.

Fixpoint slashes (k : nat) : string :=
  match k with
  | O => EmptyString
  | S k' => String "/"%char (slashes k')
  end.

Fixpoint onlySlashes (s : string) : bool :=
  match s with
  | EmptyString => true
  | String c rest => Ascii.eqb c "/"%char && onlySlashes rest
  end.

Fixpoint stripTrailingSlashes (s : string) : string :=
  match s with
  | EmptyString => EmptyString
  | String c rest =>
      match stripTrailingSlashes rest with
      | EmptyString =>
          if Ascii.eqb c "/"%char then EmptyString else String c EmptyString
      | kept => String c kept
      end
  end.

Fixpoint stripLeadingSlashes (s : string) : string :=
  match s with
  | EmptyString => EmptyString
  | String c rest =>
      if Ascii.eqb c "/"%char then stripLeadingSlashes rest else s
  end.

(** The literal text of a compiled pattern: the pattern without slashes at
    its end and with exactly one slash at its start. *)
Definition literalOf (pattern : string) : string :=
  String "/"%char (stripLeadingSlashes (stripTrailingSlashes pattern)).

(** The literal, without regard to letter case, then any number of slashes,
    then the end of the pathname. *)
Fixpoint matchLiteral (literal pathname : string) : bool :=
  match literal with
  | EmptyString => onlySlashes pathname
  | String c literal' =>
      match pathname with
      | EmptyString => false
      | String d rest =>
          Ascii.eqb (asciiLower c) (asciiLower d)
          && matchLiteral literal' rest
      end
  end.

Definition matchPath (pattern pathname : string) : bool :=
  matchLiteral (literalOf pattern) pathname.

(** *** Selecting a route *)

Fixpoint matchBranches (routes : list RouteObject) (decoded : string)
  : option RouteObject :=
  match routes with
  | [] => None
  | r :: rest =>
      if matchPath (path r) decoded then Some r
      else matchBranches rest decoded
  end.

Definition matchRoutes (routes : list RouteObject) (pathname : string)
  : option RouteObject :=
  matchBranches routes (incomingPath pathname).

(** ** The site *)

Section Site.

(** The three pages whose files are not among the sources.  Like
    [AstroPage] they are function components that return a tree of host
    elements and content blocks. *)
Variables HomePage GithubActionsPage PyTorchPage : Props -> Markup.

(** The component an imported page name refers to. *)
Definition pageComponent (p : Pages.ref) : Props -> Markup :=
  match p with
  | Pages.HomePage => HomePage
  | Pages.GithubActionsPage => GithubActionsPage
  | Pages.PyTorchPage => PyTorchPage
  | Pages.AstroPage => AstroPage
  end.

(** Mounting a route element: the pages are written without attributes, so
    they are called with empty props. *)
Fixpoint mountElement (e : Element) : Mounted :=
  match e with
  | LayoutEl ch => InLayout (map mountElement ch)
  | PageEl p => PageView (mount (pageComponent p []))
  end.

(** [RouterProvider] belongs to the routing library and is not among the
    sources.  It shows the element of the route that matches the location;
    when no route matches, the library raises no exception but shows its
    default error screen. *)
Definition RouterProvider (routes : list RouteObject) (location : string)
  : Screen :=
  match matchRoutes routes location with
  | Some r => PageScreen (mountElement (element r))
  | None => NotFoundScreen
  end.

(** [function App() { return <RouterProvider router={router} />; }], with the
    location of the browser made explicit. *)
Definition App (location : string) : Screen :=
  RouterProvider router location.

(** *** A browsing session *)

Record Session : Type := mkSession {
  location : string;
  screen : Screen
}.

Inductive Event : Type :=
| Navigate (pathname : string)
| Select (quizTitle : string) (o : QuizOption).

Definition step (s : Session) (e : Event) : Session :=
  match e with
  | Navigate pathname => {| location := pathname; screen := App pathname |}
  | Select quizTitle o =>
      {| location := location s;
         screen := screen_map (selectIn quizTitle o) (screen s) |}
  end.

Definition run (s : Session) (events : list Event) : Session :=
  fold_left step events s.

(** The selections a viewer makes while staying on a page. *)
Definition selections (picks : list (string * QuizOption)) : list Event :=
  map (fun pick => Select (fst pick) (snd pick)) picks.

(** *** The application with the matching rule left open *)

(** [RouterProvider] hands the table and the location to the matching rule
    of the routing library and mounts the element of the route it selects.
    Here the rule is an argument, so that statements can be made for every
    rule that selects among the routes it is given. *)
Definition RouterProviderWith
    (matcher : list RouteObject -> string -> option RouteObject)
    (routes : list RouteObject) (location : string) : Screen :=
  match matcher routes location with
  | Some r => PageScreen (mountElement (element r))
  | None => NotFoundScreen
  end.

Definition AppWith
    (matcher : list RouteObject -> string -> option RouteObject)
    (location : string) : Screen :=
  RouterProviderWith matcher router location.

(** * Properties *)

(** ** Element trees *)

Lemma flat_map_leaves_map {A B : Type} (f : A -> B) (ch : list (Tree A)) :
  Forall (fun t => leaves (tree_map f t) = map f (leaves t)) ch ->
  flat_map leaves (map (tree_map f) ch) = map f (flat_map leaves ch).
Proof.
  induction 1 as [|t ts Ht _ IH]; simpl.
  - reflexivity.
  - rewrite map_app, Ht, IH. reflexivity.
Qed.

Lemma leaves_tree_map {A B : Type} (f : A -> B) (t : Tree A) :
  leaves (tree_map f t) = map f (leaves t).
Proof.
  induction t as [tag cls ch IH | s | a] using Tree_children_ind; simpl.
  - apply flat_map_leaves_map, IH.
  - reflexivity.
  - reflexivity.
Qed.

Lemma tree_map_ext {A B : Type} (f g : A -> B) (t : Tree A) :
  (forall a, f a = g a) -> tree_map f t = tree_map g t.
Proof.
  intros Hfg.
  induction t as [tag cls ch IH | s | a] using Tree_children_ind; simpl.
  - f_equal. induction IH as [|t ts Ht _ IHts]; simpl; congruence.
  - reflexivity.
  - now rewrite Hfg.
Qed.

Lemma tree_map_tree_map {A B C : Type} (f : B -> C) (g : A -> B) (t : Tree A) :
  tree_map f (tree_map g t) = tree_map (fun a => f (g a)) t.
Proof.
  induction t as [tag cls ch IH | s | a] using Tree_children_ind; simpl.
  - f_equal. induction IH as [|t ts Ht _ IHts]; simpl; congruence.
  - reflexivity.
  - reflexivity.
Qed.

Lemma mounted_map_ext (f g : Instance -> Instance) (m : Mounted) :
  (forall i, f i = g i) -> mounted_map f m = mounted_map g m.
Proof.
  intros Hfg.
  induction m as [ch IH | v] using Mounted_children_ind; simpl.
  - f_equal. induction IH as [|t ts Ht _ IHts]; simpl; congruence.
  - f_equal. now apply tree_map_ext.
Qed.

Lemma mounted_map_mounted_map (f g : Instance -> Instance) (m : Mounted) :
  mounted_map f (mounted_map g m) = mounted_map (fun i => f (g i)) m.
Proof.
  induction m as [ch IH | v] using Mounted_children_ind; simpl.
  - f_equal. induction IH as [|t ts Ht _ IHts]; simpl; congruence.
  - f_equal. apply tree_map_tree_map.
Qed.

Lemma static_fresh (b : Block) : static (fresh b) = fresh b.
Proof. reflexivity. Qed.

Lemma static_selectIn (quizTitle : string) (o : QuizOption) (i : Instance) :
  static (selectIn quizTitle o i) = static i.
Proof.
  unfold selectIn, selectOption, static.
  destruct i as [b st]; simpl.
  destruct b; try reflexivity.
  destruct (String.eqb _ _); reflexivity.
Qed.

Lemma mount_static (m : Markup) : tree_map static (mount m) = mount m.
Proof.
  unfold mount. rewrite tree_map_tree_map.
  apply tree_map_ext, static_fresh.
Qed.

(** ** Route matching *)

Lemma asciiLower_slash (c : ascii) :
  asciiLower c = "/"%char <-> c = "/"%char.
Proof.
  destruct c as [[] [] [] [] [] [] [] []]; vm_compute;
    split; intros H; first [reflexivity | discriminate H].
Qed.

Lemma onlySlashes_spec (s : string) :
  onlySlashes s = true <-> exists k, s = slashes k.
Proof.
  induction s as [|c s IH]; simpl.
  - split; [exists 0; reflexivity | reflexivity].
  - rewrite Bool.andb_true_iff, Ascii.eqb_eq, IH. split.
    + intros [-> [k ->]]. exists (S k). reflexivity.
    + intros [[|k] H]; simpl in H; [discriminate|].
      injection H as -> ->. split; [reflexivity | now exists k].
Qed.

Lemma lower_eq_slashes (s : string) (k : nat) :
  lower s = slashes k <-> s = slashes k.
Proof.
  revert k. induction s as [|c s IH]; intros [|k]; simpl;
    split; intros H; try discriminate H; try reflexivity.
  - injection H as Hc Hs.
    apply (proj1 (asciiLower_slash c)) in Hc. apply (proj1 (IH k)) in Hs.
    now subst.
  - injection H as -> Hs. apply (proj2 (IH k)) in Hs. rewrite Hs. reflexivity.
Qed.

(** A compiled pattern accepts a pathname exactly when the pathname is the
    literal of the pattern, up to letter case, followed by slashes. *)
Lemma matchLiteral_spec (literal pathname : string) :
  matchLiteral literal pathname = true <->
  exists k, lower pathname = String.append (lower literal) (slashes k).
Proof.
  revert pathname. induction literal as [|c literal IH]; intros pathname; simpl.
  - rewrite onlySlashes_spec.
    split; intros [k H]; exists k.
    + now apply (proj2 (lower_eq_slashes pathname k)).
    + now apply (proj1 (lower_eq_slashes pathname k)).
  - destruct pathname as [|d rest]; simpl.
    + split; [discriminate | intros [k H]; discriminate H].
    + rewrite Bool.andb_true_iff, Ascii.eqb_eq, IH. split.
      * intros [Hc [k Hk]]. exists k. now rewrite Hc, Hk.
      * intros [k H]. injection H as Hc Hk. split; [now symmetry | now exists k].
Qed.

Lemma matchBranches_Some (routes : list RouteObject) (decoded : string)
    (r : RouteObject) :
  matchBranches routes decoded = Some r ->
  In r routes /\ matchPath (path r) decoded = true.
Proof.
  induction routes as [|r0 rest IH]; simpl.
  - discriminate.
  - destruct (matchPath (path r0) decoded) eqn:E.
    + intros [= <-]. split; [now left | exact E].
    + intros H. destruct (IH H) as [Hin Hm]. split; [now right | exact Hm].
Qed.


(** The order of the table does not matter for a pathname that only one of
    its patterns accepts. *)
Lemma matchBranches_only (routes : list RouteObject) (decoded : string)
    (r : RouteObject) :
  In r routes ->
  matchPath (path r) decoded = true ->
  (forall r', In r' routes -> matchPath (path r') decoded = true -> r' = r) ->
  matchBranches routes decoded = Some r.
Proof.
  induction routes as [|r0 rest IH]; simpl; intros Hin Hm Honly.
  - contradiction.
  - destruct (matchPath (path r0) decoded) eqn:E.
    + f_equal. apply Honly; [now left | exact E].
    + destruct Hin as [-> | Hin]; [congruence|].
      apply IH; [exact Hin | exact Hm |].
      intros r' Hin' Hm'. apply Honly; [now right | exact Hm'].
Qed.

Lemma matchRoutes_Some (routes : list RouteObject) (pathname : string)
    (r : RouteObject) :
  matchRoutes routes pathname = Some r ->
  In r routes /\ matchPath (path r) (incomingPath pathname) = true.
Proof. apply matchBranches_Some. Qed.

(** The registered paths are their own literals, in lower case. *)
Lemma router_pattern_spec (r : RouteObject) (decoded : string) :
  In r router ->
  (matchPath (path r) decoded = true <->
   exists k, lower decoded = String.append (path r) (slashes k)).
Proof.
  intros Hin. unfold matchPath. rewrite matchLiteral_spec.
  simpl in Hin.
  destruct Hin as [<- | [<- | [<- | [<- | []]]]]; reflexivity.
Qed.

(** No pathname is accepted by the patterns of two routes of the table. *)
Lemma router_patterns_disjoint (r1 r2 : RouteObject) (decoded : string) :
  In r1 router -> In r2 router ->
  matchPath (path r1) decoded = true ->
  matchPath (path r2) decoded = true ->
  r1 = r2.
Proof.
  intros Hin1 Hin2 H1 H2.
  apply (proj1 (router_pattern_spec r1 decoded Hin1)) in H1.
  apply (proj1 (router_pattern_spec r2 decoded Hin2)) in H2.
  destruct H1 as [k1 H1]. destruct H2 as [k2 H2]. rewrite H1 in H2.
  simpl in Hin1, Hin2.
  destruct Hin1 as [<- | [<- | [<- | [<- | []]]]];
    destruct Hin2 as [<- | [<- | [<- | [<- | []]]]];
    try reflexivity;
    exfalso; destruct k1, k2; simpl in H2; discriminate H2.
Qed.

Lemma router_matches (r : RouteObject) (pathname : string) :
  In r router ->
  (matchRoutes router pathname = Some r <->
   exists k,
     lower (incomingPath pathname) = String.append (path r) (slashes k)).
Proof.
  intros Hin. rewrite <- (router_pattern_spec r _ Hin). split.
  - intros H. now apply matchRoutes_Some in H.
  - intros Hm. apply matchBranches_only; [exact Hin | exact Hm |].
    intros r' Hin' Hm'.
    exact (router_patterns_disjoint r' r _ Hin' Hin Hm' Hm).
Qed.

Lemma router_paths_NoDup : NoDup (map path router).
Proof.
  simpl. repeat constructor; simpl; intuition discriminate.
Qed.

(** C4. The route table registers exactly the four paths [/],
    [/docs/github-actions], [/docs/pytorch] and [/docs/astro], each with the
    element of its own page; the paths are pairwise distinct and so are the
    pages. *)
Theorem router_registered_paths :
  map (fun r => (path r, element r)) router =
    [ ("/", LayoutEl [ PageEl Pages.HomePage ]);
      ("/docs/github-actions", LayoutEl [ PageEl Pages.GithubActionsPage ]);
      ("/docs/pytorch", LayoutEl [ PageEl Pages.PyTorchPage ]);
      ("/docs/astro", LayoutEl [ PageEl Pages.AstroPage ]) ]
  /\ length router = 4
  /\ NoDup (map path router)
  /\ NoDup (map element router).
Proof.
  split; [reflexivity|].
  split; [reflexivity|].
  split; [apply router_paths_NoDup|].
  simpl. repeat constructor; simpl; intuition discriminate.
Qed.

(** C5. Every entry of the route table has as element the one [Layout]
    component applied to exactly the page component of that route. *)
Theorem router_elements_layout_wrapped :
  Forall
    (fun r =>
       exists p,
         In (path r, p)
           [ ("/", Pages.HomePage);
             ("/docs/github-actions", Pages.GithubActionsPage);
             ("/docs/pytorch", Pages.PyTorchPage);
             ("/docs/astro", Pages.AstroPage) ]
         /\ element r = LayoutEl [ PageEl p ])
    router.
Proof.
  unfold router.
  repeat constructor; eexists; (split; [|reflexivity]); simpl; auto.
Qed.

(** C8, as amended.  Dispatch is by the default match of the routing
    library, which is exact only up to the spelling of the path: the path of
    a registered route leads to the layout-wrapped page of that route, and a
    pathname leads to that route exactly when, once decoded, it is the
    registered path up to letter case followed by any number of slashes.  The
    registered path has neither a parameter segment nor a wildcard. *)
Theorem router_dispatch_up_to_spelling :
  forall r, In r router ->
    App (path r) = PageScreen (mountElement (element r))
    /\ (forall pathname,
          matchRoutes router pathname = Some r <->
          exists k,
            lower (incomingPath pathname) =
              String.append (path r) (slashes k))
    /\ isDynamicPattern (path r) = false.
Proof.
  intros r Hin. split; [|split].
  - assert (Hm : matchRoutes router (path r) = Some r).
    { simpl in Hin.
      destruct Hin as [<- | [<- | [<- | [<- | []]]]]; reflexivity. }
    unfold App, RouterProvider. now rewrite Hm.
  - intros pathname. now apply router_matches.
  - simpl in Hin.
    destruct Hin as [<- | [<- | [<- | [<- | []]]]]; reflexivity.
Qed.


(** ** Page composition *)

Lemma mounted_page_blocks (m : Markup) :
  mountedBlocks (InLayout [ PageView (mount m) ]) = map fresh (blocksOf m).
Proof.
  simpl. rewrite app_nil_r. apply leaves_tree_map.
Qed.

(** C1. Navigating to the path of a registered route shows, inside the
    layout, the page of that route, and the blocks on the screen are the
    authored blocks of the page in their order, freshly mounted.  For
    [/docs/astro] the page is a title followed by the eleven blocks
    TextBlock, MermaidDiagram, TextBlock, CodeSnippet, TextBlock, CodeSnippet,
    Quiz, TextBlock, CodeSnippet, Quiz, Resources with their literals. *)
Theorem registered_route_renders_authored_blocks :
  (forall r, In r router ->
     exists p,
       element r = LayoutEl [ PageEl p ]
       /\ App (path r) =
            PageScreen (InLayout [ PageView (mount (pageComponent p [])) ])
       /\ screenBlocks (App (path r)) =
            map fresh (blocksOf (pageComponent p [])))
  /\ (forall props,
        screenBlocks (App "/docs/astro") = map fresh (blocksOf (AstroPage props))
        /\ AstroPage props =
             Host "div" "space-y-8 p-6"
               (Host "h1" "text-4xl font-bold mb-8 text-white"
                  [ JsxText
                      "Astro: The Web Framework for Content-Driven Websites" ]
                :: map BlockEl (blocksOf (AstroPage props)))
        /\ map kindOf (blocksOf (AstroPage props)) =
             [ KTextBlock; KMermaidDiagram; KTextBlock; KCodeSnippet;
               KTextBlock; KCodeSnippet; KQuiz; KTextBlock; KCodeSnippet;
               KQuiz; KResources ]
        /\ map blockLabel (blocksOf (AstroPage props)) =
             [ "The Problem Space: JavaScript Bloat in Content-Heavy Websites";
               "/diagrams/astro-architecture.mmd";
               "Conceptual Architecture: Islands of Interactivity";
               "astro.config.mjs";
               "Practical Implementation: Building Content-Driven Sites";
               "src/pages/blog/[...slug].astro";
               "Understanding Astro's Island Architecture";
               "Advanced Features: Content Collections and Type Safety";
               "src/content/config.ts";
               "Astro Content Collections";
               "Essential Astro Resources" ]).
Proof.
  split.
  - intros r Hin. simpl in Hin.
    destruct Hin as [<- | [<- | [<- | [<- | []]]]];
      eexists; (split; [reflexivity|]); (split; [reflexivity|]);
      (etransitivity; [|apply mounted_page_blocks]); reflexivity.
  - intros props. split; [|split; [|split]].
    + etransitivity; [|apply mounted_page_blocks]. reflexivity.
    + reflexivity.
    + reflexivity.
    + reflexivity.
Qed.

(** ** Content blocks *)

(** C3. Selecting an option of a quiz whose id is the configured correct
    answer shows the correct indication together with the configured
    explanation; selecting an option with any other id shows the incorrect
    indication together with the same explanation. *)
Theorem quiz_selection_feedback :
  forall (assets : Assets) (i : Instance) (quizTitle : string)
         (q : QuizQuestion) (o : QuizOption),
    props i = Quiz quizTitle q ->
    In o (options q) ->
    (id o = correctAnswer q ->
       feedbackOf (display assets (selectOption o i)) =
         Some (Correct, explanation q))
    /\ (id o <> correctAnswer q ->
          feedbackOf (display assets (selectOption o i)) =
            Some (Incorrect, explanation q)).
Proof.
  intros assets [b st] quizTitle q o Hprops _. simpl in Hprops. subst b.
  unfold selectOption, display, quizFeedback, verdict; simpl.
  destruct (String.eqb_spec (id o) (correctAnswer q)) as [Heq | Hneq].
  - split; [reflexivity | contradiction].
  - split; [contradiction | reflexivity].
Qed.

(** C7. A resource list shows as many links as it has configured entries,
    and the destination of each link is the url of the entry at the same
    position; the resource list of [AstroPage], the block at position 10,
    has seven entries and shows their seven urls. *)
Theorem resources_links_rendered :
  (forall (assets : Assets) (blockTitle : string) (links : list ResourceLink)
          (st : option string),
     let shown :=
       display assets {| props := Resources blockTitle links; selected := st |}
     in
     length (renderedLinks shown) = length links
     /\ map href (renderedLinks shown) = map url links)
  /\ (forall (assets : Assets) (props : Props),
        map (@length ResourceLink) (resourcesOf (AstroPage props)) = [7]
        /\ exists anchors,
             nth_error (displayed assets (App "/docs/astro")) 10 =
               Some (LinkList "Essential Astro Resources" anchors)
             /\ length anchors = 7
             /\ map href anchors =
                  [ "https://docs.astro.build/";
                    "https://docs.astro.build/en/tutorial/0-introduction/";
                    "https://docs.astro.build/en/concepts/islands/";
                    "https://docs.astro.build/en/guides/content-collections/";
                    "https://docs.astro.build/en/guides/integrations-guide/";
                    "https://astro.build/chat";
                    "https://github.com/one-aalam/awesome-astro" ]).
Proof.
  split.
  - intros assets blockTitle links st. cbv zeta.
    unfold display; simpl. split.
    + apply length_map.
    + rewrite map_map. reflexivity.
  - intros assets props. split; [reflexivity|].
    eexists. split; [reflexivity|]. split; reflexivity.
Qed.

(** C10. [AstroPage] has two quizzes, and each is well formed: its option
    ids are pairwise distinct and exactly one of its options has the id
    configured as the correct answer. *)
Theorem astro_quizzes_well_formed :
  forall props,
    length (quizzesOf (AstroPage props)) = 2
    /\ Forall wellFormedQuiz (quizzesOf (AstroPage props)).
Proof.
  intros props. split; [reflexivity|].
  let l := eval vm_compute in (quizzesOf (AstroPage props)) in
  change (quizzesOf (AstroPage props)) with l.
  repeat constructor; simpl; intuition discriminate.
Qed.

(** C9. When the asset of a diagram cannot be loaded, every block of the
    page is still shown at its position: the blocks that are not diagrams
    show what they show with any other asset store, the diagram whose asset
    is missing shows a placeholder, and any other diagram is unaffected. *)
Theorem diagram_failure_isolated :
  forall (assets healthy : Assets) (page : Markup) (diagramPath : string),
    assets diagramPath = None ->
    Forall2
      (fun b shown =>
         match b with
         | MermaidDiagram p caption =>
             if String.eqb p diagramPath
             then shown = DiagramPlaceholder caption
             else shown = display assets (fresh b)
         | _ => shown = display healthy (fresh b)
         end)
      (blocksOf page)
      (displayed assets (PageScreen (InLayout [ PageView (mount page) ]))).
Proof.
  intros assets healthy page diagramPath Hmissing.
  unfold displayed, screenBlocks. rewrite mounted_page_blocks.
  induction (blocksOf page) as [|b bs IH]; simpl; constructor; [|exact IH].
  destruct b as [h t | p c | l f c | t q | t ls]; try reflexivity.
  destruct (String.eqb_spec p diagramPath) as [-> | _]; [|reflexivity].
  unfold display; simpl. now rewrite Hmissing.
Qed.

(** ** Sessions *)

Lemma mountElement_static (e : Element) :
  mounted_map static (mountElement e) = mountElement e.
Proof.
  revert e. fix IH 1. intros [ch | p]; simpl.
  - f_equal. induction ch as [|c cs IHcs]; simpl.
    + reflexivity.
    + now rewrite IH, IHcs.
  - f_equal. apply mount_static.
Qed.

Lemma App_static (pathname : string) :
  screen_map static (App pathname) = App pathname.
Proof.
  unfold App, RouterProvider.
  destruct (matchRoutes router pathname) as [r|]; simpl.
  - f_equal. apply mountElement_static.
  - reflexivity.
Qed.

Lemma screen_map_static_selectIn (quizTitle : string) (o : QuizOption)
    (sc : Screen) :
  screen_map static (screen_map (selectIn quizTitle o) sc) =
  screen_map static sc.
Proof.
  destruct sc as [m|]; simpl; [|reflexivity].
  f_equal. rewrite mounted_map_mounted_map.
  apply mounted_map_ext. intros i. apply static_selectIn.
Qed.

Lemma run_selections (picks : list (string * QuizOption)) :
  forall s,
    screen_map static (screen (run s (selections picks))) =
      screen_map static (screen s)
    /\ location (run s (selections picks)) = location s.
Proof.
  induction picks as [|[quizTitle o] rest IH]; intros s.
  - split; reflexivity.
  - destruct (IH (step s (Select quizTitle o))) as [Hscreen Hloc].
    change (run s (selections ((quizTitle, o) :: rest)))
      with (run (step s (Select quizTitle o)) (selections rest)).
    rewrite Hscreen, Hloc. simpl.
    split; [apply screen_map_static_selectIn | reflexivity].
Qed.

(** C6. Rendering a page does not depend on the request: [AstroPage] returns
    the same tree whatever props it is called with, navigating to a path
    gives the same session whatever the session was before, and after any
    selections made on the page its static part is still that of the freshly
    mounted page, to which navigating again resets it. *)
Theorem page_render_request_independent :
  (forall props1 props2 : Props, AstroPage props1 = AstroPage props2)
  /\ (forall (s1 s2 : Session) (pathname : string),
        step s1 (Navigate pathname) = step s2 (Navigate pathname))
  /\ (forall (s : Session) (pathname : string)
             (picks : list (string * QuizOption)),
        let visited := run (step s (Navigate pathname)) (selections picks) in
        screen_map static (screen visited) = App pathname
        /\ step visited (Navigate pathname) = step s (Navigate pathname)).
Proof.
  split; [reflexivity|]. split; [reflexivity|].
  intros s pathname picks. cbv zeta. split; [|reflexivity].
  destruct (run_selections picks (step s (Navigate pathname))) as [Hscreen _].
  rewrite Hscreen. simpl. apply App_static.
Qed.

(** X2. Whatever rule the routing library uses to select a route, as long
    as it selects among the routes of the table, the application shows either
    the not-found screen or exactly one registered page inside the layout,
    freshly mounted with the authored blocks of that page; a page is never
    shown outside the layout. *)
Theorem app_shows_layout_wrapped_page :
  forall (matcher : list RouteObject -> string -> option RouteObject),
    (forall routes pathname r,
       matcher routes pathname = Some r -> In r routes) ->
    forall pathname,
      (matcher router pathname = None
       /\ AppWith matcher pathname = NotFoundScreen)
      \/ (exists r p,
            matcher router pathname = Some r
            /\ In r router
            /\ element r = LayoutEl [ PageEl p ]
            /\ AppWith matcher pathname =
                 PageScreen
                   (InLayout [ PageView (mount (pageComponent p [])) ])
            /\ screenBlocks (AppWith matcher pathname) =
                 map fresh (blocksOf (pageComponent p []))).
Proof.
  intros matcher Hsound pathname.
  unfold AppWith, RouterProviderWith.
  destruct (matcher router pathname) as [r|] eqn:Hm.
  - right. pose proof (Hsound _ _ _ Hm) as Hin.
    assert (Hshape : exists p, element r = LayoutEl [ PageEl p ]).
    { simpl in Hin.
      destruct Hin as [<- | [<- | [<- | [<- | []]]]]; eexists; reflexivity. }
    destruct Hshape as [p Hp].
    exists r, p. rewrite Hp.
    repeat (split; [first [reflexivity | assumption]|]).
    apply mounted_page_blocks.
  - left. split; reflexivity.
Qed.

End Site.

(** ** Instances on concrete data *)



Lemma router_dispatch_up_to_spelling_witness :
  In {| path := "/docs/astro";
        element := LayoutEl [ PageEl Pages.AstroPage ] |} router
  /\ App blankPage blankPage blankPage "/docs/astro" =
       PageScreen (InLayout [ PageView (mount (AstroPage [])) ])
  /\ matchRoutes router "/DOCS/%61stro//" =
       Some {| path := "/docs/astro";
               element := LayoutEl [ PageEl Pages.AstroPage ] |}
  /\ isDynamicPattern "/docs/astro" = false.
Proof.
  assert (Hin : In {| path := "/docs/astro";
                      element := LayoutEl [ PageEl Pages.AstroPage ] |} router).
  { simpl. auto 6. }
  split; [exact Hin|].
  destruct (router_dispatch_up_to_spelling blankPage blankPage blankPage _ Hin)
    as [Happ [Hiff Hstatic]].
  split; [exact Happ|]. split; [|exact Hstatic].
  apply Hiff. exists 2. reflexivity.
Defined.

(** The path [/docs/Astro] is not the string of any registered path, yet it
    is dispatched to the route of [/docs/astro]. *)
Lemma router_dispatch_is_not_exact :
  ~ In "/docs/Astro" (map path router)
  /\ matchRoutes router "/docs/Astro" =
       Some {| path := "/docs/astro";
               element := LayoutEl [ PageEl Pages.AstroPage ] |}
  /\ App blankPage blankPage blankPage "/docs/Astro" =
       App blankPage blankPage blankPage "/docs/astro".
Proof.
  split; [|split].
  - simpl. intuition discriminate.
  - reflexivity.
  - reflexivity.
Qed.

(** The route selected for some pathnames: spellings of registered paths,
    an empty segment inside a path, an escaped slash, a malformed escape, and
    paths that are not registered. *)
Example matchRoutes_samples :
  map (fun pathname => option_map path (matchRoutes router pathname))
    [ "/"; "//"; "/docs/astro"; "/docs/astro/"; "/docs/Astro";
      "/DOCS/PYTORCH"; "/docs/%61stro"; "/docs/github%2Dactions";
      "/docs//astro"; "/docs/astro%2F"; "/docs/astr%"; "/docs/astro/x";
      "/docs"; "/docs/rust" ] =
    [ Some "/"; Some "/"; Some "/docs/astro"; Some "/docs/astro";
      Some "/docs/astro"; Some "/docs/pytorch"; Some "/docs/astro";
      Some "/docs/github-actions";
      None; None; None; None; None; None ].
Proof. reflexivity. Qed.

Lemma quiz_selection_feedback_witness :
  exists i quizTitle q right wrong,
    instanceAt 6 (AstroPage []) = Some i
    /\ props i = Quiz quizTitle q
    /\ nth_error (options q) 1 = Some right
    /\ nth_error (options q) 0 = Some wrong
    /\ feedbackOf (display noAssets (selectOption right i)) =
         Some (Correct, explanation q)
    /\ feedbackOf (display noAssets (selectOption wrong i)) =
         Some (Incorrect, explanation q).
Proof.
  do 5 eexists.
  split; [reflexivity|]. split; [reflexivity|].
  split; [reflexivity|]. split; [reflexivity|].
  split.
  - match goal with
    | |- feedbackOf (display _ (selectOption ?o ?i)) = Some (_, explanation ?q) =>
        destruct (quiz_selection_feedback noAssets i _ q o eq_refl) as [Hright _]
    end.
    + simpl. auto.
    + apply Hright. reflexivity.
  - match goal with
    | |- feedbackOf (display _ (selectOption ?o ?i)) = Some (_, explanation ?q) =>
        destruct (quiz_selection_feedback noAssets i _ q o eq_refl) as [_ Hwrong]
    end.
    + simpl. auto.
    + apply Hwrong. discriminate.
Defined.

Lemma diagram_failure_isolated_witness :
  noAssets "/diagrams/astro-architecture.mmd" = None
  /\ Forall2
       (fun b shown =>
          match b with
          | MermaidDiagram p caption =>
              if String.eqb p "/diagrams/astro-architecture.mmd"
              then shown = DiagramPlaceholder caption
              else shown = display noAssets (fresh b)
          | _ => shown = display (fun _ => Some "graph TD") (fresh b)
          end)
       (blocksOf (AstroPage []))
       (displayed noAssets
          (PageScreen (InLayout [ PageView (mount (AstroPage [])) ]))).
Proof.
  split; [reflexivity|].
  apply (diagram_failure_isolated noAssets (fun _ => Some "graph TD")
           (AstroPage []) "/diagrams/astro-architecture.mmd").
  reflexivity.
Defined.

(** The page of [/docs/astro] with a missing diagram file: eleven blocks are
    shown and the second one is the placeholder with the caption. *)
Example astro_diagram_placeholder :
  length (displayed noAssets
            (App blankPage blankPage blankPage "/docs/astro")) = 11
  /\ nth_error
       (displayed noAssets (App blankPage blankPage blankPage "/docs/astro"))
       1 =
     Some
       (DiagramPlaceholder
          "Astro's island architecture showing selective hydration and static generation").
Proof. split; reflexivity. Qed.

(** Selecting option C of the second quiz and navigating to the page again
    leaves no selection behind. *)
Example astro_selection_resets :
  let start := {| location := "/"; screen := NotFoundScreen |} in
  let events :=
    [ Navigate "/docs/astro";
      Select "Astro Content Collections" {| id := "C"; text := "" |};
      Navigate "/docs/astro" ] in
  map feedbackOf
    (displayed noAssets
       (screen (run blankPage blankPage blankPage start events))) =
  map (fun _ => None) (blocksOf (AstroPage [])).
Proof. reflexivity. Qed.

(** ** Further properties of the authored data *)

Lemma app_shows_layout_wrapped_page_witness :
  (forall routes pathname r,
     matchRoutes routes pathname = Some r -> In r routes)
  /\ ((matchRoutes router "/docs/astro" = None
       /\ AppWith blankPage blankPage blankPage matchRoutes "/docs/astro" =
            NotFoundScreen)
      \/ (exists r p,
            matchRoutes router "/docs/astro" = Some r
            /\ In r router
            /\ element r = LayoutEl [ PageEl p ]
            /\ AppWith blankPage blankPage blankPage matchRoutes "/docs/astro" =
                 PageScreen
                   (InLayout
                      [ PageView
                          (mount
                             (pageComponent blankPage blankPage blankPage p [])) ])
            /\ screenBlocks
                 (AppWith blankPage blankPage blankPage matchRoutes
                    "/docs/astro") =
                 map fresh
                   (blocksOf
                      (pageComponent blankPage blankPage blankPage p [])))).
Proof.
  assert (Hsound : forall routes pathname r,
             matchRoutes routes pathname = Some r -> In r routes).
  { intros routes pathname r H. now apply matchRoutes_Some in H. }
  split; [exact Hsound|].
  apply (app_shows_layout_wrapped_page blankPage blankPage blankPage
           matchRoutes Hsound "/docs/astro").
Defined.

(** X1. Every registered path is either the root [/] or of the shape
    [/docs/<topic>] with one non-empty topic written in lower-case letters,
    digits and hyphens: the paths are absolute, have no trailing slash, no
    empty segment and no query or fragment. *)
Theorem router_paths_scheme :
  Forall
    (fun r =>
       path r = "/"
       \/ exists topic,
            path r = String.append "/docs/" topic
            /\ docsTopic (path r) = Some topic
            /\ nonEmpty topic = true
            /\ allChars kebabChar topic = true)
    router.
Proof.
  unfold router. apply Forall_cons; [now left|].
  repeat
    (apply Forall_cons;
     [ right; eexists; simpl path;
       (split; [|split; [reflexivity | split; reflexivity]]); reflexivity |]).
  apply Forall_nil.
Qed.

(** X3. Every entry of the resource list of [AstroPage] has a title, a
    description and a url that starts with [https://] and has no blank, and
    no two entries share a url or a title. *)
Theorem astro_resource_links_hygiene :
  forall props,
    Forall
      (fun links =>
         forallb resourceLinkOk links = true
         /\ NoDup (map url links)
         /\ NoDup (map title links))
      (resourcesOf (AstroPage props)).
Proof.
  intros props.
  let l := eval vm_compute in (resourcesOf (AstroPage props)) in
  change (resourcesOf (AstroPage props)) with l.
  repeat constructor; try (vm_compute; reflexivity);
    simpl; intuition discriminate.
Qed.

(** X4. Every quiz of [AstroPage] offers four options with the ids A, B, C
    and D in this order, and the texts of its options are non-empty and
    pairwise different. *)
Theorem astro_quiz_options_presentable :
  forall props,
    Forall
      (fun q =>
         map id (options q) = [ "A"; "B"; "C"; "D" ]
         /\ forallb (fun o => nonEmpty (text o)) (options q) = true
         /\ NoDup (map text (options q)))
      (quizzesOf (AstroPage props)).
Proof.
  intros props.
  let l := eval vm_compute in (quizzesOf (AstroPage props)) in
  change (quizzesOf (AstroPage props)) with l.
  repeat constructor; try (vm_compute; reflexivity);
    simpl; intuition discriminate.
Qed.

(** X5. [AstroPage] has eleven blocks; none of them has an empty literal,
    down to the id and text of every quiz option and the title, url and
    description of every link, nor an empty option list or link list; and the
    identifying literals of the blocks (headers, diagram path, file names,
    titles) are pairwise different. *)
Theorem astro_blocks_complete_and_distinct :
  forall props,
    length (blocksOf (AstroPage props)) = 11
    /\ forallb blockComplete (blocksOf (AstroPage props)) = true
    /\ NoDup (map blockLabel (blocksOf (AstroPage props))).
Proof.
  intros props. split; [reflexivity|]. split; [vm_compute; reflexivity|].
  let l := eval vm_compute in (map blockLabel (blocksOf (AstroPage props))) in
  change (map blockLabel (blocksOf (AstroPage props))) with l.
  repeat constructor; simpl; intuition discriminate.
Qed.
